(** * checkPolinoms.py: decimal to hexadecimal display lines

    A shallow embedding of [dec_to_hex_list] and of the script's driver.

    Text is a [string] holding the UTF-8 bytes of the Python [str]: every
    operation of the script that looks at single characters ([zfill], the
    format fields) only meets ASCII characters, and the arrow and the
    Cyrillic message are copied as they are.

    Python integers are [Z]; [%] with the positive modulus 256 is [Z.modulo]
    (the remainder has the sign of the divisor). *)

From Stdlib Require Import ZArith List String Ascii Bool Lia.
From Stdlib Require Import DecimalString DecimalPos DecimalZ.
From Stdlib Require Decimal Hexadecimal.
Import ListNotations.
Local Open Scope string_scope.
Local Open Scope Z_scope.

(** ** Built-in formatting *)

Module Fmt.

(** [f"{n}"] on an int: shortest decimal numeral, [-] before a negative one.
    CPython refuses numerals of more than 4300 digits unless told otherwise;
    the function only formats remainders modulo 256. *)
Definition str (z : Z) : string := NilZero.string_of_int (Z.to_int z).

(** Upper-case hexadecimal digits of an unsigned numeral. *)
Fixpoint upper_of_uint (d : Hexadecimal.uint) : string :=
  match d with
  | Hexadecimal.Nil => EmptyString
  | Hexadecimal.D0 d => String "0" (upper_of_uint d)
  | Hexadecimal.D1 d => String "1" (upper_of_uint d)
  | Hexadecimal.D2 d => String "2" (upper_of_uint d)
  | Hexadecimal.D3 d => String "3" (upper_of_uint d)
  | Hexadecimal.D4 d => String "4" (upper_of_uint d)
  | Hexadecimal.D5 d => String "5" (upper_of_uint d)
  | Hexadecimal.D6 d => String "6" (upper_of_uint d)
  | Hexadecimal.D7 d => String "7" (upper_of_uint d)
  | Hexadecimal.D8 d => String "8" (upper_of_uint d)
  | Hexadecimal.D9 d => String "9" (upper_of_uint d)
  | Hexadecimal.Da d => String "A" (upper_of_uint d)
  | Hexadecimal.Db d => String "B" (upper_of_uint d)
  | Hexadecimal.Dc d => String "C" (upper_of_uint d)
  | Hexadecimal.Dd d => String "D" (upper_of_uint d)
  | Hexadecimal.De d => String "E" (upper_of_uint d)
  | Hexadecimal.Df d => String "F" (upper_of_uint d)
  end.

(** Digits of the magnitude, at least one digit. *)
Definition upper_digits (z : Z) : string :=
  upper_of_uint (N.to_hex_uint (Z.abs_N z)).

Definition sign_of (z : Z) : string := if z <? 0 then "-" else "".

Fixpoint zeros (k : nat) : string :=
  match k with
  | O => EmptyString
  | S k' => String "0" (zeros k')
  end.

(** [f"{n:X}"]. *)
Definition format_X (z : Z) : string := sign_of z ++ upper_digits z.

(** [f"{n:0wX}"]: the zeros go between the sign and the digits, and the
    width counts the sign. *)
Definition format_0wX (w : nat) (z : Z) : string :=
  let sg := sign_of z in
  let ds := upper_digits z in
  sg ++ zeros (w - length sg - length ds) ++ ds.

(** [s.zfill(width)]: zeros on the left up to [width] characters, after a
    leading sign when there is one. *)
Definition zfill (width : nat) (s : string) : string :=
  let pad := zeros (width - length s) in
  match s with
  | String c rest =>
      if (Ascii.eqb c "+" || Ascii.eqb c "-")%bool
      then String c (pad ++ rest)
      else pad ++ s
  | EmptyString => pad
  end.

End Fmt.

(** ** Local variables, exceptions and control flow *)

(** The frame of one call: a local is unbound until its first assignment. *)
Module Locals.
Record t : Type := mk
  { result : option (list string);
    num : option Z;
    n : option Z;
    hex_str : option string }.

Definition empty : t := mk None None None None.

Definition set_result (v : list string) (fr : t) : t :=
  mk (Some v) (num fr) (n fr) (hex_str fr).
Definition set_num (v : Z) (fr : t) : t :=
  mk (result fr) (Some v) (n fr) (hex_str fr).
Definition set_n (v : Z) (fr : t) : t :=
  mk (result fr) (num fr) (Some v) (hex_str fr).
Definition set_hex_str (v : string) (fr : t) : t :=
  mk (result fr) (num fr) (n fr) (Some v).
End Locals.

Inductive exn : Type :=
| UnboundLocalError (name : string).

(** What running a piece of the loop body leads to: it falls through with a
    value, it hits [continue], or it raises. *)
Inductive outcome (A : Type) : Type :=
| Normal (a : A) (fr : Locals.t)
| Continue (fr : Locals.t)
| Raise (e : exn).
Arguments Normal {A} a fr.
Arguments Continue {A} fr.
Arguments Raise {A} e.

Definition M (A : Type) : Type := Locals.t -> outcome A.

Definition ret {A} (a : A) : M A := fun fr => Normal a fr.

Definition bind {A B} (c : M A) (k : A -> M B) : M B :=
  fun fr =>
    match c fr with
    | Normal a fr' => k a fr'
    | Continue fr' => Continue fr'
    | Raise e => Raise e
    end.

Declare Scope py_scope.
Delimit Scope py_scope with py.
Notation "x <- c ;; k" := (bind c (fun x => k))
  (at level 61, c at next level, right associativity) : py_scope.
Notation "c ;; k" := (bind c (fun _ => k))
  (at level 61, right associativity) : py_scope.
Local Open Scope py_scope.

Definition load {A} (field : Locals.t -> option A) (name : string) : M A :=
  fun fr =>
    match field fr with
    | Some v => Normal v fr
    | None => Raise (UnboundLocalError name)
    end.

Definition store {A} (setter : A -> Locals.t -> Locals.t) (v : A) : M unit :=
  fun fr => Normal tt (setter v fr).

Definition continue_ : M unit := fun fr => Continue fr.

(** [result.append(s)] *)
Definition result_append (s : string) : M unit :=
  r <- load Locals.result "result" ;;
  store Locals.set_result (r ++ [s])%list.

(** [for num in numbers: body]: [continue] ends the current round only. *)
Fixpoint for_num_in (numbers : list Z) (body : M unit) : M unit :=
  match numbers with
  | [] => ret tt
  | x :: rest =>
      fun fr =>
        match (store Locals.set_num x ;; body) fr with
        | Normal _ fr' => for_num_in rest body fr'
        | Continue fr' => for_num_in rest body fr'
        | Raise e => Raise e
        end
  end.

(** ** dec_to_hex_list, line by line *)

(** [int(num)] on an int. *)
Definition int_ (num : Z) : Z := num.

Definition arrow : string := " → ".
Definition negative_message : string := "ОШИБКА: отрицательное".

(** [n = int(num) % 256] *)
Definition line_8 : M unit :=
  num <- load Locals.num "num" ;;
  store Locals.set_n (int_ num mod 256).

(** [if n < 0: result.append(...); continue] *)
Definition lines_9_11 : M unit :=
  n <- load Locals.n "n" ;;
  if n <? 0 then
    (n <- load Locals.n "n" ;;
     result_append (Fmt.str n ++ arrow ++ negative_message) ;;
     continue_)
  else ret tt.

(** [hex_str = f"0x{n:X}".zfill(4)] *)
Definition line_13 : M unit :=
  n <- load Locals.n "n" ;;
  store Locals.set_hex_str (Fmt.zfill 4 ("0x" ++ Fmt.format_X n)).

(** [if n <= 255: hex_str = f"0x{n:02X}" else: hex_str = f"0x{n:X}"] *)
Definition lines_15_18 : M unit :=
  n <- load Locals.n "n" ;;
  if n <=? 255 then
    (n <- load Locals.n "n" ;;
     store Locals.set_hex_str ("0x" ++ Fmt.format_0wX 2 n))
  else
    (n <- load Locals.n "n" ;;
     store Locals.set_hex_str ("0x" ++ Fmt.format_X n)).

(** [result.append(f"{n} → {hex_str}")] *)
Definition line_20 : M unit :=
  n <- load Locals.n "n" ;;
  hex_str <- load Locals.hex_str "hex_str" ;;
  result_append (Fmt.str n ++ arrow ++ hex_str).

(** Lines 9 to 20: the loop body once [n] is assigned. *)
Definition lines_9_20 : M unit :=
  lines_9_11 ;; line_13 ;; lines_15_18 ;; line_20.

Definition loop_body : M unit := line_8 ;; lines_9_20.

(** Lines 6 to 22, with the loop body as a parameter. *)
Definition function_body (body : M unit) (numbers : list Z) : M (list string) :=
  store Locals.set_result [] ;;
  for_num_in numbers body ;;
  load Locals.result "result".

Definition returned {A} (o : outcome A) : option A :=
  match o with
  | Normal a _ => Some a
  | _ => None
  end.

(** A call runs the body in a fresh frame; [None] stands for an exception. *)
Definition dec_to_hex_list (numbers : list Z) : option (list string) :=
  returned (function_body loop_body numbers Locals.empty).

(** ** The driver *)

Definition decimal_numbers : list Z :=
  [283; 285; 299; 301; 313; 319; 333; 351; 355; 357; 361; 369;
   375; 379; 391; 395; 397; 415; 419; 425; 433; 445; 451; 463; 471; 477;
   487; 499; 501; 505].

Definition newline : string := String (ascii_of_nat 10) EmptyString.

(** [print(line)]: standard output is the text written so far. *)
Definition print (line : string) (stdout : string) : string :=
  stdout ++ line ++ newline.

(** [for line in dec_to_hex_list(decimal_numbers): print(line)] *)
Definition script (stdout : string) : option string :=
  match dec_to_hex_list decimal_numbers with
  | Some lines => Some (fold_left (fun out line => print line out) lines stdout)
  | None => None
  end.

(** ** Reading a display line back *)

(** The vocabulary of the specification: a display line is a decimal
    numeral, the arrow, and a hexadecimal rendering or a message. *)
Module Display.

(** [Some rest] when [s] is [p] followed by [rest]. *)
Fixpoint strip_prefix (p s : string) : option string :=
  match p, s with
  | EmptyString, _ => Some s
  | String a p', String b s' =>
      if Ascii.eqb a b then strip_prefix p' s' else None
  | String _ _, EmptyString => None
  end.

(** The text before the first arrow and the text after it. *)
Fixpoint split_arrow (s : string) : option (string * string) :=
  match strip_prefix arrow s with
  | Some rest => Some (EmptyString, rest)
  | None =>
      match s with
      | EmptyString => None
      | String c s' =>
          match split_arrow s' with
          | Some (before, after) => Some (String c before, after)
          | None => None
          end
      end
  end.

(** No blank in [s]: a numeral never holds the blank the arrow starts with. *)
Fixpoint spaceless (s : string) : bool :=
  match s with
  | EmptyString => true
  | String c s' => negb (Ascii.eqb c " ") && spaceless s'
  end.

Definition parse_int (s : string) : option Z :=
  option_map Z.of_int (NilZero.int_of_string s).

(** The decimal portion of a line, as a number. *)
Definition decimal_portion (s : string) : option Z :=
  match split_arrow s with
  | Some (before, _) => parse_int before
  | None => None
  end.

(** The hexadecimal digits of a line: what follows the arrow and [0x]. *)
Definition hex_portion (s : string) : option string :=
  match split_arrow s with
  | Some (_, after) => strip_prefix "0x" after
  | None => None
  end.

(** The error variant: the message follows the arrow. *)
Definition error_line (s : string) : bool :=
  match split_arrow s with
  | Some (_, after) => String.eqb after negative_message
  | None => false
  end.

Definition hex_digit (d : Z) : ascii :=
  match d with
  | 0 => "0" | 1 => "1" | 2 => "2" | 3 => "3"
  | 4 => "4" | 5 => "5" | 6 => "6" | 7 => "7"
  | 8 => "8" | 9 => "9" | 10 => "A" | 11 => "B"
  | 12 => "C" | 13 => "D" | 14 => "E" | _ => "F"
  end%char.

(** A byte as upper-case hexadecimal, zero-padded to exactly two digits. *)
Definition two_hex_digits (n : Z) : string :=
  String (hex_digit (n / 16)) (String (hex_digit (n mod 16)) EmptyString).

(** ["{n} → 0x{HEX}"] *)
Definition record (n : Z) : string :=
  Fmt.str n ++ arrow ++ "0x" ++ two_hex_digits n.

End Display.

(** [splitlines] of the text written to standard output. *)
Fixpoint splitlines_from (current s : string) : list string :=
  match s with
  | EmptyString =>
      match current with
      | EmptyString => []
      | _ => [current]
      end
  | String c s' =>
      if Ascii.eqb c (ascii_of_nat 10)
      then current :: splitlines_from EmptyString s'
      else splitlines_from (current ++ String c EmptyString) s'
  end.

Definition splitlines (s : string) : list string :=
  splitlines_from EmptyString s.

(** ** What one round of the loop appends *)

(** The text lines 9 to 20 append when [n] holds [k]. *)
Definition appended (k : Z) : string :=
  if k <? 0 then Fmt.str k ++ arrow ++ negative_message
  else if k <=? 255 then Fmt.str k ++ arrow ++ "0x" ++ Fmt.format_0wX 2 k
  else Fmt.str k ++ arrow ++ "0x" ++ Fmt.format_X k.

(** The line for one input value. *)
Definition line_for (v : Z) : string := appended (int_ v mod 256).

Definition result_of {A} (o : outcome A) : option (list string) :=
  match o with
  | Normal _ fr => Locals.result fr
  | Continue fr => Locals.result fr
  | Raise _ => None
  end.

Definition raises {A} (o : outcome A) : bool :=
  match o with
  | Raise _ => true
  | _ => false
  end.

Definition continues {A} (o : outcome A) : bool :=
  match o with
  | Continue _ => true
  | _ => false
  end.

(** ** The function without line 13 *)

Definition lines_9_20_without_13 : M unit :=
  lines_9_11 ;; lines_15_18 ;; line_20.

Definition loop_body_without_13 : M unit := line_8 ;; lines_9_20_without_13.

Definition dec_to_hex_list_without_13 (numbers : list Z) : option (list string) :=
  returned (function_body loop_body_without_13 numbers Locals.empty).

(** ** Reading the hexadecimal digits and the printed text *)

(** The value of an upper-case hexadecimal digit. *)
Definition hex_value (c : ascii) : option Z :=
  let code := Z.of_N (N_of_ascii c) in
  if (48 <=? code) && (code <=? 57) then Some (code - 48)
  else if (65 <=? code) && (code <=? 70) then Some (code - 55)
  else None.

Fixpoint parse_hex_from (acc : Z) (s : string) : option Z :=
  match s with
  | EmptyString => Some acc
  | String c s' =>
      match hex_value c with
      | Some d => parse_hex_from (16 * acc + d) s'
      | None => None
      end
  end.

(** A non-empty run of upper-case hexadecimal digits, as a number. *)
Definition parse_hex (s : string) : option Z :=
  match s with
  | EmptyString => None
  | _ => parse_hex_from 0 s
  end.

(** The number the hexadecimal digits of a line stand for. *)
Definition hex_number (s : string) : option Z :=
  match Display.hex_portion s with
  | Some digits => parse_hex digits
  | None => None
  end.

Fixpoint newline_free (s : string) : bool :=
  match s with
  | EmptyString => true
  | String c s' => negb (Ascii.eqb c (ascii_of_nat 10)) && newline_free s'
  end.

(** The print loop of lines 31 and 32, over any list of lines. *)
Definition print_lines (lines : list string) (stdout : string) : string :=
  fold_left (fun out line => print line out) lines stdout.

(** What line 13 leaves in [hex_str] for a byte: below 16 the zero lands
    before the [0x]. *)
Definition line_13_text (k : Z) : string :=
  if k <? 16 then "00x" ++ String (Display.hex_digit k) EmptyString
  else "0x" ++ Display.two_hex_digits k.

(** ** Bytes: checking a property on every value below 256 *)

Definition bytes : list Z := map Z.of_nat (seq 0 256).

Lemma bytes_complete (k : Z) : 0 <= k < 256 -> In k bytes.
Proof.
  intros Hk. unfold bytes.
  replace k with (Z.of_nat (Z.to_nat k)) by lia.
  apply in_map, in_seq. lia.
Qed.

Lemma forall_bytes (P : Z -> bool) :
  forallb P bytes = true -> forall k, 0 <= k < 256 -> P k = true.
Proof.
  intros Hall k Hk.
  rewrite forallb_forall in Hall. apply Hall, bytes_complete, Hk.
Qed.

Lemma normalized_range (v : Z) : 0 <= int_ v mod 256 < 256.
Proof. apply Z.mod_pos_bound. lia. Qed.

Lemma appended_byte (k : Z) :
  0 <= k < 256 -> appended k = Display.record k.
Proof.
  intros Hk.
  apply String.eqb_eq.
  apply (forall_bytes (fun k => String.eqb (appended k) (Display.record k)));
    [vm_compute; reflexivity | exact Hk].
Qed.

(** ** The loop, one round at a time *)

Lemma lines_9_20_run (fr : Locals.t) (k : Z) (r : list string) :
  Locals.n fr = Some k -> Locals.result fr = Some r ->
  result_of (lines_9_20 fr) = Some (r ++ [appended k])%list
  /\ raises (lines_9_20 fr) = false
  /\ continues (lines_9_20 fr) = (k <? 0).
Proof.
  destruct fr as [res nu nn hx]; simpl; intros -> ->.
  unfold lines_9_20, lines_9_11, line_13, lines_15_18, line_20, appended,
    result_append, bind, load, store, continue_, ret; simpl.
  destruct (k <? 0); simpl; [auto |].
  destruct (k <=? 255); simpl; auto.
Qed.

Lemma round_run (fr : Locals.t) (v : Z) (r : list string) :
  Locals.result fr = Some r ->
  exists fr',
    ((store Locals.set_num v ;; loop_body) fr = Normal tt fr'
     \/ (store Locals.set_num v ;; loop_body) fr = Continue fr')
    /\ Locals.result fr' = Some (r ++ [line_for v])%list.
Proof.
  intros Hr.
  set (fr1 := Locals.set_n (int_ v mod 256) (Locals.set_num v fr)).
  assert (Hstep : (store Locals.set_num v ;; loop_body) fr = lines_9_20 fr1)
    by reflexivity.
  destruct (lines_9_20_run fr1 (int_ v mod 256) r eq_refl Hr) as (Hres & Hraise & _).
  rewrite Hstep.
  destruct (lines_9_20 fr1) as [[] fr' | fr' | e]; simpl in *;
    [exists fr'; auto | exists fr'; auto | discriminate].
Qed.

Lemma for_num_in_run (numbers : list Z) :
  forall (fr : Locals.t) (r : list string),
    Locals.result fr = Some r ->
    exists fr',
      for_num_in numbers loop_body fr = Normal tt fr'
      /\ Locals.result fr' = Some (r ++ map line_for numbers)%list.
Proof.
  induction numbers as [| v rest IH]; intros fr r Hr.
  - exists fr. simpl. rewrite app_nil_r. auto.
  - destruct (round_run fr v r Hr) as (fr1 & Hrun & Hres).
    destruct (IH fr1 _ Hres) as (fr2 & Hloop & Hres2).
    exists fr2. split.
    + cbn [for_num_in]. destruct Hrun as [-> | ->]; exact Hloop.
    + rewrite Hres2, <- app_assoc. reflexivity.
Qed.

Lemma function_body_run (numbers : list Z) (fr : Locals.t) :
  returned (function_body loop_body numbers fr) = Some (map line_for numbers).
Proof.
  destruct (for_num_in_run numbers (Locals.set_result [] fr) [] eq_refl)
    as (fr' & Hloop & Hres).
  unfold function_body, bind, store, load. rewrite Hloop, Hres. reflexivity.
Qed.

Lemma dec_to_hex_list_map (numbers : list Z) :
  dec_to_hex_list numbers = Some (map line_for numbers).
Proof. apply function_body_run. Qed.

Lemma line_for_record (v : Z) : line_for v = Display.record (int_ v mod 256).
Proof. apply appended_byte, normalized_range. Qed.

(** ** Numerals and the arrow *)

Lemma strip_prefix_app (p rest : string) :
  Display.strip_prefix p (p ++ rest) = Some rest.
Proof.
  induction p as [| a p IH]; simpl.
  - destruct rest; reflexivity.
  - rewrite Ascii.eqb_refl. exact IH.
Qed.

Lemma split_arrow_eq (s : string) :
  Display.split_arrow s =
  match Display.strip_prefix arrow s with
  | Some rest => Some (EmptyString, rest)
  | None =>
      match s with
      | EmptyString => None
      | String c s' =>
          match Display.split_arrow s' with
          | Some (before, after) => Some (String c before, after)
          | None => None
          end
      end
  end.
Proof. destruct s; reflexivity. Qed.

Lemma strip_arrow_no_blank (c : ascii) (s : string) :
  Ascii.eqb c " " = false -> Display.strip_prefix arrow (String c s) = None.
Proof.
  intros Hc. unfold arrow. cbn [Display.strip_prefix].
  rewrite Ascii.eqb_sym, Hc. reflexivity.
Qed.

Lemma split_arrow_app (a rest : string) :
  Display.spaceless a = true ->
  Display.split_arrow (a ++ arrow ++ rest) = Some (a, rest).
Proof.
  induction a as [| c a IH]; intros Hfree.
  - rewrite split_arrow_eq.
    change (EmptyString ++ arrow ++ rest) with (arrow ++ rest).
    rewrite strip_prefix_app. reflexivity.
  - simpl in Hfree. apply andb_true_iff in Hfree as [Hc Ha].
    apply negb_true_iff in Hc.
    rewrite split_arrow_eq.
    change (String c a ++ arrow ++ rest) with (String c (a ++ arrow ++ rest)).
    rewrite (strip_arrow_no_blank _ _ Hc), (IH Ha). reflexivity.
Qed.

Lemma spaceless_uint (d : Decimal.uint) :
  Display.spaceless (NilEmpty.string_of_uint d) = true.
Proof. induction d; simpl; auto. Qed.

Lemma spaceless_str (k : Z) : Display.spaceless (Fmt.str k) = true.
Proof.
  unfold Fmt.str.
  destruct (Z.to_int k) as [d | d]; simpl;
    destruct d; simpl; auto using spaceless_uint.
Qed.

Lemma to_int_proper (k : Z) :
  Z.to_int k <> Decimal.Pos Decimal.Nil /\ Z.to_int k <> Decimal.Neg Decimal.Nil.
Proof.
  destruct k as [| p | p]; simpl; split; try discriminate;
    intros [= H]; exact (DecimalPos.Unsigned.to_uint_nonnil p H).
Qed.

Lemma parse_str (k : Z) : Display.parse_int (Fmt.str k) = Some k.
Proof.
  unfold Display.parse_int, Fmt.str.
  destruct (to_int_proper k) as [Hp Hn].
  rewrite (NilZero.isi _ Hp Hn). simpl. f_equal. apply DecimalZ.of_to.
Qed.

Lemma decimal_portion_line (k : Z) (rest : string) :
  Display.decimal_portion (Fmt.str k ++ arrow ++ rest) = Some k.
Proof.
  unfold Display.decimal_portion.
  rewrite (split_arrow_app _ _ (spaceless_str k)). apply parse_str.
Qed.

Lemma appended_shape (k : Z) : exists rest, appended k = Fmt.str k ++ arrow ++ rest.
Proof.
  unfold appended. destruct (k <? 0); [| destruct (k <=? 255)]; eauto.
Qed.

Lemma hex_portion_record (k : Z) :
  Display.hex_portion (Display.record k) = Some (Display.two_hex_digits k).
Proof.
  unfold Display.hex_portion, Display.record.
  rewrite (split_arrow_app _ _ (spaceless_str k)). reflexivity.
Qed.

Lemma error_line_record (k : Z) : Display.error_line (Display.record k) = false.
Proof.
  unfold Display.error_line, Display.record.
  rewrite (split_arrow_app _ _ (spaceless_str k)). reflexivity.
Qed.

Lemma upper_half_normalized (v : Z) : 256 <= v <= 511 -> int_ v mod 256 = v - 256.
Proof.
  intros Hv. unfold int_. symmetry.
  apply (Z.mod_unique v 256 1 (v - 256)); lia.
Qed.

Lemma loop_body_without_13_same (fr : Locals.t) :
  loop_body fr = loop_body_without_13 fr.
Proof.
  destruct fr as [res nu nn hx].
  unfold loop_body, loop_body_without_13, lines_9_20, lines_9_20_without_13,
    line_8, lines_9_11, line_13, lines_15_18, line_20,
    result_append, bind, load, store, continue_, ret; simpl.
  destruct nu as [v |]; simpl; [| reflexivity].
  destruct (int_ v mod 256 <? 0); simpl; [destruct res; reflexivity |].
  destruct (int_ v mod 256 <=? 255); simpl; destruct res; reflexivity.
Qed.

Lemma for_num_in_ext (body body' : M unit) :
  (forall fr, body fr = body' fr) ->
  forall numbers fr, for_num_in numbers body fr = for_num_in numbers body' fr.
Proof.
  intros Hext numbers.
  induction numbers as [| v rest IH]; intros fr; [reflexivity |].
  cbn [for_num_in]. unfold bind, store. rewrite Hext.
  destruct (body' (Locals.set_num v fr)); auto.
Qed.

(** * The claims *)

(** C1: for every integer [v], [dec_to_hex_list [v]] returns exactly one
    string; the text before its arrow reads as [v mod 256] (remainder with
    the sign of the modulus), a value between 0 and 255. *)
Theorem single_value_decimal_portion (v : Z) :
  exists s,
    dec_to_hex_list [v] = Some [s]
    /\ Display.decimal_portion s = Some (v mod 256)
    /\ 0 <= v mod 256 <= 255.
Proof.
  exists (line_for v). split; [apply dec_to_hex_list_map |]. split.
  - unfold line_for. destruct (appended_shape (int_ v mod 256)) as [rest ->].
    apply decimal_portion_line.
  - pose proof (normalized_range v) as H. unfold int_ in H. lia.
Qed.

(** C2: with [n] the normalized value of the input, the line is
    ["{n} → 0x{HEX}"], HEX being [n] in upper-case hexadecimal zero-padded
    to exactly two digits; 5, 27, 0 and 255 give ["5 → 0x05"],
    ["27 → 0x1B"], ["0 → 0x00"] and ["255 → 0xFF"]. *)
Theorem two_digit_format :
  (forall v : Z,
      0 <= v mod 256 <= 255
      /\ dec_to_hex_list [v]
         = Some [Fmt.str (v mod 256) ++ " → 0x" ++ Display.two_hex_digits (v mod 256)]
      /\ length (Display.two_hex_digits (v mod 256)) = 2%nat)
  /\ dec_to_hex_list [5] = Some ["5 → 0x05"]
  /\ dec_to_hex_list [27] = Some ["27 → 0x1B"]
  /\ dec_to_hex_list [0] = Some ["0 → 0x00"]
  /\ dec_to_hex_list [255] = Some ["255 → 0xFF"].
Proof.
  split; [| repeat split; reflexivity].
  intros v. split; [| split; [| reflexivity]].
  - pose proof (normalized_range v) as H. unfold int_ in H. lia.
  - rewrite dec_to_hex_list_map. cbn [map]. rewrite line_for_record. reflexivity.
Qed.

(** C3: for every list of integers, also negative ones, the call returns,
    no returned line is the error variant, every line has the two-digit
    format, and after line 8 the test of line 9 is false and the test of
    line 15 is true: the [n < 0] branch and the [else] branch are never
    taken. *)
Theorem dead_branches (numbers : list Z) :
  (exists lines,
      dec_to_hex_list numbers = Some lines
      /\ Forall (fun s =>
                   Display.error_line s = false
                   /\ option_map length (Display.hex_portion s) = Some 2%nat
                   /\ exists k, 0 <= k <= 255 /\ s = Display.record k) lines)
  /\ (forall (v : Z) (fr : Locals.t),
         exists k,
           (store Locals.set_num v ;; line_8) fr
           = Normal tt (Locals.set_n k (Locals.set_num v fr))
           /\ (k <? 0) = false /\ (k <=? 255) = true
           /\ continues ((store Locals.set_num v ;; loop_body) fr) = false).
Proof.
  split.
  - exists (map line_for numbers). split; [apply dec_to_hex_list_map |].
    apply Forall_forall. intros s Hs.
    apply in_map_iff in Hs as (v & <- & _).
    rewrite line_for_record.
    pose proof (normalized_range v) as Hk.
    split; [apply error_line_record |]. split.
    + rewrite hex_portion_record. reflexivity.
    + exists (int_ v mod 256). split; [lia | reflexivity].
  - intros v fr. exists (int_ v mod 256).
    pose proof (normalized_range v) as Hk.
    assert (Hneg : (int_ v mod 256 <? 0) = false) by (apply Z.ltb_ge; lia).
    split; [reflexivity |]. split; [exact Hneg |].
    split; [apply Z.leb_le; lia |].
    destruct fr as [res nu nn hx].
    unfold loop_body, lines_9_20, line_8, lines_9_11, line_13, lines_15_18,
      line_20, result_append, bind, load, store, continue_, ret; simpl.
    rewrite Hneg; simpl.
    destruct (int_ v mod 256 <=? 255); simpl; destruct res; reflexivity.
Qed.

(** C5: the returned list is as long as the input list, and its i-th string
    is the one the call returns for the i-th input value alone. *)
Theorem order_preserved (numbers : list Z) :
  exists lines,
    dec_to_hex_list numbers = Some lines
    /\ List.length lines = List.length numbers
    /\ forall i : nat,
        option_map (fun s => Some [s]) (nth_error lines i)
        = option_map (fun v => dec_to_hex_list [v]) (nth_error numbers i).
Proof.
  exists (map line_for numbers). split; [apply dec_to_hex_list_map |].
  split; [apply length_map |].
  intros i. rewrite nth_error_map.
  destruct (nth_error numbers i) as [v |]; simpl; [| reflexivity].
  rewrite dec_to_hex_list_map. reflexivity.
Qed.

(** C6: [[283, 285]] gives ["27 → 0x1B"] and ["29 → 0x1D"]; [[256]] gives
    ["0 → 0x00"]; [[511]] gives ["255 → 0xFF"]. *)
Theorem concrete_scenarios :
  dec_to_hex_list [283; 285] = Some ["27 → 0x1B"; "29 → 0x1D"]
  /\ dec_to_hex_list [256] = Some ["0 → 0x00"]
  /\ dec_to_hex_list [511] = Some ["255 → 0xFF"].
Proof. repeat split; reflexivity. Qed.

(** C7: [decimal_numbers] holds exactly 30 integers, and the script writes
    one line per element, in order: the lines of its output are the strings
    [dec_to_hex_list decimal_numbers] returns, each ended by a newline. *)
Theorem script_output :
  List.length decimal_numbers = 30%nat
  /\ exists lines out,
      dec_to_hex_list decimal_numbers = Some lines
      /\ List.length lines = List.length decimal_numbers
      /\ script "" = Some out
      /\ out = String.concat "" (map (fun line => line ++ newline) lines)
      /\ splitlines out = lines.
Proof.
  split; [reflexivity |].
  exists (map line_for decimal_numbers).
  destruct (script "") as [out |] eqn:Hout; [| discriminate Hout].
  exists out. split; [apply dec_to_hex_list_map |].
  split; [apply length_map |]. split; [reflexivity |].
  injection Hout as <-. split; vm_compute; reflexivity.
Qed.

(** C8: the call is deterministic: what it returns depends on the input
    sequence alone. Whatever the locals hold when the body starts, the body
    returns what a call with a fresh frame returns, and it does return. *)
Theorem deterministic (numbers : list Z) (fr1 fr2 : Locals.t) :
  returned (function_body loop_body numbers fr1)
  = returned (function_body loop_body numbers fr2)
  /\ returned (function_body loop_body numbers fr1) = dec_to_hex_list numbers
  /\ exists lines, dec_to_hex_list numbers = Some lines.
Proof.
  rewrite !function_body_run, dec_to_hex_list_map. eauto.
Qed.

(** C9: line 13 never affects the output. What it stores in [hex_str] is
    overwritten by lines 15 to 18 before line 20 reads it, and the function
    with line 13 removed runs to the same outcome from every frame, so it
    returns the same list for every input. *)
Theorem line_13_dead (numbers : list Z) :
  (forall (fr : Locals.t) (h : string),
      result_of ((lines_15_18 ;; line_20) (Locals.set_hex_str h fr))
      = result_of ((lines_15_18 ;; line_20) fr))
  /\ (forall fr : Locals.t,
         function_body loop_body numbers fr
         = function_body loop_body_without_13 numbers fr)
  /\ dec_to_hex_list numbers = dec_to_hex_list_without_13 numbers.
Proof.
  assert (Hbody : forall fr, function_body loop_body numbers fr
                             = function_body loop_body_without_13 numbers fr).
  { intros fr. unfold function_body, bind, store.
    rewrite (for_num_in_ext _ _ loop_body_without_13_same). reflexivity. }
  split; [| split; [exact Hbody |]].
  - intros [res nu nn hx] h.
    unfold lines_15_18, line_20, result_append, bind, load, store; simpl.
    destruct nn as [k |]; simpl; [| reflexivity].
    destruct (k <=? 255); simpl; destruct res; reflexivity.
  - unfold dec_to_hex_list, dec_to_hex_list_without_13. rewrite Hbody.
    reflexivity.
Qed.

(** C10: every element of [decimal_numbers] lies between 256 and 511, so
    the decimal value printed for [v] is [v - 256]; the output is the 30
    two-digit lines for these values, from ["27 → 0x1B"] to
    ["249 → 0xF9"]. *)
Theorem driver_lines :
  Forall (fun v => 256 <= v <= 511) decimal_numbers
  /\ exists lines,
      dec_to_hex_list decimal_numbers = Some lines
      /\ lines = map (fun v => Display.record (v - 256)) decimal_numbers
      /\ map Display.decimal_portion lines
         = map (fun v => Some (v - 256)) decimal_numbers
      /\ List.length lines = 30%nat
      /\ hd_error lines = Some "27 → 0x1B"
      /\ last lines "" = "249 → 0xF9"
      /\ option_map splitlines (script "") = Some lines.
Proof.
  assert (Hrange : Forall (fun v => 256 <= v <= 511) decimal_numbers).
  { apply Forall_forall. intros v Hv.
    assert (Hb : ((256 <=? v) && (v <=? 511))%bool = true).
    { revert v Hv. apply forallb_forall. reflexivity. }
    apply andb_true_iff in Hb as [H1 H2]. lia. }
  split; [exact Hrange |].
  exists (map line_for decimal_numbers).
  assert (Hlines : map line_for decimal_numbers
                   = map (fun v => Display.record (v - 256)) decimal_numbers).
  { apply map_ext_in. intros v Hv.
    rewrite Forall_forall in Hrange.
    rewrite line_for_record, (upper_half_normalized v (Hrange v Hv)).
    reflexivity. }
  split; [apply dec_to_hex_list_map |]. split; [exact Hlines |].
  split.
  { rewrite Hlines, map_map. apply map_ext. intros v.
    unfold Display.record. apply decimal_portion_line. }
  repeat split; vm_compute; reflexivity.
Qed.

(** * Further properties of the code *)

(** ** Helper lemmas *)

Lemma lower_half_normalized (v : Z) : -256 <= v < 0 -> int_ v mod 256 = v + 256.
Proof.
  intros Hv. unfold int_. symmetry.
  apply (Z.mod_unique v 256 (-1) (v + 256)); lia.
Qed.

Lemma decimal_portion_appended (k : Z) :
  Display.decimal_portion (appended k) = Some k.
Proof.
  destruct (appended_shape k) as [rest ->]. apply decimal_portion_line.
Qed.

Lemma hex_number_byte (k : Z) :
  0 <= k < 256 -> hex_number (Display.record k) = Some k.
Proof.
  intros Hk. unfold hex_number. rewrite hex_portion_record.
  pose (check := fun k => match parse_hex (Display.two_hex_digits k) with
                          | Some z => z =? k
                          | None => false
                          end).
  assert (Hc : check k = true)
    by (apply forall_bytes; [vm_compute; reflexivity | exact Hk]).
  unfold check in Hc.
  destruct (parse_hex (Display.two_hex_digits k)) as [z |]; [| discriminate].
  apply Z.eqb_eq in Hc. congruence.
Qed.

Lemma line_13_byte (k : Z) :
  0 <= k < 256 -> Fmt.zfill 4 ("0x" ++ Fmt.format_X k) = line_13_text k.
Proof.
  intros Hk. apply String.eqb_eq.
  apply (forall_bytes
           (fun k => String.eqb (Fmt.zfill 4 ("0x" ++ Fmt.format_X k))
                       (line_13_text k)));
    [vm_compute; reflexivity | exact Hk].
Qed.

Lemma append_assoc (a b c : string) : (a ++ b) ++ c = a ++ b ++ c.
Proof. induction a as [| x a IH]; simpl; [reflexivity | now rewrite IH]. Qed.

Lemma append_empty_r (a : string) : a ++ "" = a.
Proof. induction a as [| x a IH]; simpl; [reflexivity | now rewrite IH]. Qed.

Lemma splitlines_from_line (line rest : string) :
  newline_free line = true ->
  forall current,
    splitlines_from current (line ++ newline ++ rest)
    = (current ++ line) :: splitlines_from "" rest.
Proof.
  induction line as [| c line IH]; intros Hfree current.
  - simpl. rewrite append_empty_r. reflexivity.
  - simpl in Hfree. apply andb_true_iff in Hfree as [Hc Hline].
    apply negb_true_iff in Hc.
    change (String c line ++ newline ++ rest)
      with (String c (line ++ newline ++ rest)).
    cbn [splitlines_from]. rewrite Hc, (IH Hline), append_assoc. reflexivity.
Qed.

Lemma concat_cons (x : string) (xs : list string) :
  String.concat "" (x :: xs) = x ++ String.concat "" xs.
Proof.
  destruct xs as [| y ys]; simpl; [now rewrite append_empty_r | reflexivity].
Qed.

Lemma print_lines_app (lines : list string) :
  forall stdout,
    print_lines lines stdout
    = stdout ++ String.concat "" (map (fun line => line ++ newline) lines).
Proof.
  induction lines as [| line rest IH]; intros stdout.
  - simpl. now rewrite append_empty_r.
  - change (print_lines (line :: rest) stdout)
      with (print_lines rest (print line stdout)).
    rewrite IH. cbn [map]. rewrite concat_cons. unfold print.
    rewrite !append_assoc. reflexivity.
Qed.

Lemma splitlines_printed (lines : list string) :
  forallb newline_free lines = true ->
  splitlines (String.concat "" (map (fun line => line ++ newline) lines)) = lines.
Proof.
  unfold splitlines.
  induction lines as [| line rest IH]; intros Hfree; [reflexivity |].
  cbn [forallb] in Hfree. apply andb_true_iff in Hfree as [Hline Hrest].
  cbn [map]. rewrite concat_cons, append_assoc.
  rewrite (splitlines_from_line _ _ Hline). cbn [append].
  rewrite (IH Hrest). reflexivity.
Qed.

Lemma newline_free_line_for (v : Z) : newline_free (line_for v) = true.
Proof.
  rewrite line_for_record.
  apply (forall_bytes (fun k => newline_free (Display.record k)));
    [vm_compute; reflexivity | apply normalized_range].
Qed.

Lemma line_13_agrees_from_16 (k : Z) :
  0 <= k < 256 ->
  String.eqb (line_13_text k) ("0x" ++ Fmt.format_0wX 2 k) = (16 <=? k).
Proof.
  intros Hk. apply Bool.eqb_prop.
  apply (forall_bytes
           (fun k => Bool.eqb
                       (String.eqb (line_13_text k) ("0x" ++ Fmt.format_0wX 2 k))
                       (16 <=? k)));
    [vm_compute; reflexivity | exact Hk].
Qed.

(** ** Properties *)

(** X1: the line depends on the input's remainder modulo 256 and on nothing
    else: two values get the same line exactly when they are congruent
    modulo 256. *)
Theorem residue_decides_line (v w : Z) :
  v mod 256 = w mod 256 <-> dec_to_hex_list [v] = dec_to_hex_list [w].
Proof.
  rewrite !dec_to_hex_list_map. cbn [map]. unfold line_for, int_. split.
  - intros ->. reflexivity.
  - intros [= H].
    apply (f_equal Display.decimal_portion) in H.
    rewrite !decimal_portion_appended in H. congruence.
Qed.

(** X2: a negative input down to -256 wraps like a byte: the line for [v]
    is the two-digit record of [v + 256]. *)
Theorem negative_wraps (v : Z) :
  -256 <= v < 0 -> dec_to_hex_list [v] = Some [Display.record (v + 256)].
Proof.
  intros Hv. rewrite dec_to_hex_list_map. cbn [map].
  rewrite line_for_record, (lower_half_normalized v Hv). reflexivity.
Qed.

Lemma negative_wraps_witness :
  -256 <= -1 < 0 /\ dec_to_hex_list [-1] = Some ["255 → 0xFF"].
Proof.
  split; [lia |]. apply (negative_wraps (-1)). lia.
Defined.

(** X3: the two halves of a line agree: the hexadecimal digits after [0x],
    read as a number, give the decimal value before the arrow, which is
    the input modulo 256. *)
Theorem hex_matches_decimal (v : Z) :
  exists s,
    dec_to_hex_list [v] = Some [s]
    /\ hex_number s = Some (v mod 256)
    /\ hex_number s = Display.decimal_portion s.
Proof.
  exists (line_for v). split; [apply dec_to_hex_list_map |].
  assert (Hhex : hex_number (line_for v) = Some (v mod 256)).
  { rewrite line_for_record. apply hex_number_byte, normalized_range. }
  split; [exact Hhex |].
  rewrite Hhex. unfold line_for. rewrite decimal_portion_appended. reflexivity.
Qed.

(** X4: the call distributes over concatenation: the lines for [a ++ b] are
    the lines for [a] followed by the lines for [b]; the empty list gives
    the empty list. *)
Theorem append_distributes (a b : list Z) :
  dec_to_hex_list (a ++ b)
  = match dec_to_hex_list a, dec_to_hex_list b with
    | Some la, Some lb => Some (la ++ lb)%list
    | _, _ => None
    end
  /\ dec_to_hex_list [] = Some [].
Proof.
  rewrite !dec_to_hex_list_map, map_app. split; reflexivity.
Qed.

(** X6: what line 13 stores for a byte: [zfill(4)] pads on the left of the
    whole text, so below 16 [hex_str] becomes ["00x"] and one digit; from 16
    on it is [0x] and two digits. It equals what line 16 stores exactly
    when [n] is at least 16. *)
Theorem line_13_stores (fr : Locals.t) (k : Z) :
  Locals.n fr = Some k -> 0 <= k <= 255 ->
  line_13 fr = Normal tt (Locals.set_hex_str (line_13_text k) fr)
  /\ (line_13_text k = "0x" ++ Fmt.format_0wX 2 k <-> 16 <= k).
Proof.
  intros Hn Hk. split.
  - unfold line_13, bind, load, store. rewrite Hn.
    rewrite line_13_byte by lia. reflexivity.
  - rewrite <- String.eqb_eq, line_13_agrees_from_16 by lia.
    apply Z.leb_le.
Qed.

Lemma line_13_stores_witness :
  Locals.n (Locals.mk (Some []) (Some 5) (Some 5) None) = Some 5
  /\ 0 <= 5 <= 255
  /\ line_13 (Locals.mk (Some []) (Some 5) (Some 5) None)
     = Normal tt (Locals.mk (Some []) (Some 5) (Some 5) (Some "00x5")).
Proof.
  split; [reflexivity |]. split; [lia |].
  apply (line_13_stores (Locals.mk (Some []) (Some 5) (Some 5) None) 5);
    [reflexivity | lia].
Defined.

(** X7: for every input list no returned line holds a newline, so the
    print loop writes the lines after what standard output already held,
    each followed by one newline, and splitting what it wrote at the
    newlines gives the returned list back. The script is this loop over
    the lines of [decimal_numbers]. *)
Theorem printed_lines_round_trip (numbers : list Z) (stdout : string) :
  (exists lines,
      dec_to_hex_list numbers = Some lines
      /\ forallb newline_free lines = true
      /\ print_lines lines stdout
         = stdout ++ String.concat "" (map (fun line => line ++ newline) lines)
      /\ splitlines (print_lines lines "") = lines)
  /\ script stdout
     = option_map (fun lines => print_lines lines stdout)
         (dec_to_hex_list decimal_numbers).
Proof.
  split.
  - exists (map line_for numbers). split; [apply dec_to_hex_list_map |].
    assert (Hfree : forallb newline_free (map line_for numbers) = true).
    { apply forallb_forall. intros s Hs.
      apply in_map_iff in Hs as (v & <- & _). apply newline_free_line_for. }
    split; [exact Hfree |]. split; [apply print_lines_app |].
    rewrite print_lines_app. cbn [append]. apply splitlines_printed, Hfree.
  - unfold script. destruct (dec_to_hex_list decimal_numbers); reflexivity.
Qed.

(** X8: reducing the inputs modulo 256 beforehand changes nothing: the
    decimal values the lines show, given back as input, produce the same
    lines. *)
Theorem normalizing_first_is_idle (numbers : list Z) :
  dec_to_hex_list (map (fun v => v mod 256) numbers) = dec_to_hex_list numbers.
Proof.
  rewrite !dec_to_hex_list_map, map_map. f_equal.
  apply map_ext. intros v. unfold line_for, int_.
  rewrite Z.mod_mod by lia. reflexivity.
Qed.
